(** * KnowYourStats: the agent control loop of [agent/agent_core.py]

    A shallow embedding of [AgenticAI]: the planning / investigation /
    synthesis loop of [run], the action dispatch of [_execute_action] and the
    decode-with-fallback step that follows every call to the text service.

    - Python integers are [Z]; decoded JSON is the inductive [json]; the
      findings dict is a [gmap string json]; the trace and the tool log are
      lists.
    - The object is mutated in place by every method, so the methods are
      written in a state-and-exception monad over the record [agent].
    - The text service and [json.loads] are not code of this repository: the
      service is a function from the number of the request to its outcome,
      the decoder a function from text to an optional value.  Both are
      section variables, so every statement holds for all of them.
    - [settings.MAX_AGENT_ITERATIONS] is a section variable as well. *)

From Stdlib Require Import ZArith Floats.SpecFloat.
From stdpp Require Import base strings list gmap pretty.

Set Warnings "-register-all".
Open Scope Z_scope.

(** ** Decoded JSON values *)

Inductive json : Type :=
| JNull
| JBool (b : bool)
| JInt (n : Z)
| JFloat (x : spec_float)
| JStr (s : string)
| JArr (items : list json)
| JObj (fields : list (string * json)).

(** Lookup of a key in the fields of an object. *)
Fixpoint assoc (key : string) (fields : list (string * json)) : option json :=
  match fields with
  | [] => None
  | (k, v) :: rest => if String.eqb k key then Some v else assoc key rest
  end.

(** [v == s] for a string literal [s]: only a string compares equal to one. *)
Definition eq_str (v : json) (s : string) : bool :=
  match v with
  | JStr t => String.eqb t s
  | _ => false
  end.

(** Truth value of a value under [if]. *)
Definition truthy (v : json) : bool :=
  match v with
  | JNull => false
  | JBool b => b
  | JInt n => negb (n =? 0)
  | JFloat (S754_zero _) => false
  | JFloat _ => true
  | JStr s => match s with EmptyString => false | String _ _ => true end
  | JArr items => match items with [] => false | _ => true end
  | JObj fields => match fields with [] => false | _ => true end
  end.

(** ** Exceptions, state and the monad of the methods *)

Inductive exn : Type :=
| TransportError   (* raised by the call to the text service *)
| KeyError
| TypeError
| AttributeError
| IndexError.

Inductive result (A : Type) : Type :=
| Ok (a : A)
| Raise (e : exn).
Arguments Ok {A} a.
Arguments Raise {A} e.

(** One entry of [self.reasoning_trace]; the constructor is the ['phase']. *)
Inductive trace_entry : Type :=
| Planning (content : json)
| Investigation (iteration : Z) (action : json) (res : json).

(** The mutable fields of an [AgenticAI] object, and the number of requests
    it has sent to the text service so far. *)
Record agent : Type := Agent {
  requests : nat;
  reasoning_trace : list trace_entry;
  tools_used : list json;
  findings : gmap string json
}.

(** The object as [__init__] leaves it. *)
Definition init : agent :=
  {| requests := 0; reasoning_trace := []; tools_used := []; findings := ∅ |}.

Definition M (A : Type) : Type := agent -> result (A * agent).

Definition ret {A} (a : A) : M A := fun s => Ok (a, s).

Definition bind {A B} (c : M A) (k : A -> M B) : M B :=
  fun s => match c s with
           | Ok (a, s') => k a s'
           | Raise e => Raise e
           end.

Definition raise {A} (e : exn) : M A := fun _ => Raise e.

Notation "'let*' x ':=' c 'in' k" := (bind c (fun x => k))
  (at level 10, x name, c at level 100, k at level 200).
Notation "'do*' c 'in' k" := (bind c (fun _ => k))
  (at level 10, c at level 100, k at level 200).

Definition trace_append (e : trace_entry) : M unit := fun s =>
  Ok (tt, {| requests := requests s;
             reasoning_trace := reasoning_trace s ++ [e];
             tools_used := tools_used s;
             findings := findings s |}).

Definition tools_append (t : json) : M unit := fun s =>
  Ok (tt, {| requests := requests s;
             reasoning_trace := reasoning_trace s;
             tools_used := tools_used s ++ [t];
             findings := findings s |}).

Definition findings_set (key : string) (v : json) : M unit := fun s =>
  Ok (tt, {| requests := requests s;
             reasoning_trace := reasoning_trace s;
             tools_used := tools_used s;
             findings := <[key := v]> (findings s) |}).

(** [value[key]] for a string key: only a dict can be indexed by a string,
    and a missing key raises. *)
Definition getitem (value : json) (key : string) : M json :=
  match value with
  | JObj fields =>
      match assoc key fields with
      | Some v => ret v
      | None => raise KeyError
      end
  | _ => raise TypeError
  end.

(** [value.get(key, default)]: only a dict has the method. *)
Definition get (value : json) (key : string) (default : json) : M json :=
  match value with
  | JObj fields =>
      match assoc key fields with
      | Some v => ret v
      | None => ret default
      end
  | _ => raise AttributeError
  end.

(** The key [f"iteration_{iteration}"] of the findings dict. *)
Definition findings_key (iteration : Z) : string :=
  "iteration_" +:+ pretty iteration.

(** What [run] returns. *)
Record AgentRunResult : Type := RunResult {
  report : string;
  rr_reasoning_trace : list trace_entry;
  rr_tools_used : list json;
  rr_findings : gmap string json
}.

(** The outcome of one request to the text service. *)
Inductive response : Type :=
| Failure
| Text (body : string).

Definition is_investigation (e : trace_entry) : bool :=
  match e with
  | Investigation _ _ _ => true
  | Planning _ => false
  end.

(** Number of trace entries whose phase is investigation. *)
Definition investigation_entries (trace : list trace_entry) : nat :=
  length (filter (fun e => is_investigation e = true) trace).

(** The fallback of [_decide_next_action]. *)
Definition fallback_action : json :=
  JObj [("action", JStr "complete");
        ("reasoning", JStr "Unable to parse action, completing analysis")].

(** ** Readings of an action and of the state *)

(** The ['action'] entry of a decoded action, when it is a dict that has one. *)
Definition kind_of (action : json) : option json :=
  match action with
  | JObj fields => assoc "action" fields
  | _ => None
  end.

(** The kinds that [_execute_action] hands to a provider. *)
Definition registered (kind : json) : bool :=
  eq_str kind "analyze" || eq_str kind "calculate" ||
  eq_str kind "compare" || eq_str kind "investigate_anomaly".

(** The state after one more request, nothing else touched. *)
Definition requested (s : agent) : agent :=
  {| requests := S (requests s);
     reasoning_trace := reasoning_trace s;
     tools_used := tools_used s;
     findings := findings s |}.

(** Two states that differ at most in the number of requests sent. *)
Definition same_data (s s' : agent) : Prop :=
  reasoning_trace s' = reasoning_trace s /\
  tools_used s' = tools_used s /\
  findings s' = findings s.

(** The state after an executed action of kind [kind] with result [res] has
    been recorded in round [iteration]. *)
Definition recorded (iteration : Z) (action kind res : json) (s : agent) : agent :=
  {| requests := requests s;
     reasoning_trace := reasoning_trace s ++ [Investigation iteration action res];
     tools_used := tools_used s ++ [kind];
     findings := <[findings_key iteration := res]> (findings s) |}.

(** The trace of a result: the plan first, then the investigation entries
    numbered 1, 2, ... in order, each with its finding under the same index. *)
Definition trace_well_formed (trace : list trace_entry)
    (found : gmap string json) : Prop :=
  exists plan entries,
    trace = Planning plan :: entries /\
    forall (k : nat) e, entries !! k = Some e ->
      exists action res,
        e = Investigation (Z.of_nat k + 1) action res /\
        found !! findings_key (Z.of_nat k + 1) = Some res.

(** The state of a run in which [n] actions have been executed and recorded:
    the trace is the plan followed by [n] investigation entries numbered
    1 to [n], each with its finding, and the tool log has [n] entries. *)
Definition rounds_recorded (n : Z) (s : agent) : Prop :=
  exists plan entries,
    reasoning_trace s = Planning plan :: entries /\
    Z.of_nat (length entries) = n /\
    length (tools_used s) = length entries /\
    forall (k : nat) e, entries !! k = Some e ->
      exists action res,
        e = Investigation (Z.of_nat k + 1) action res /\
        findings s !! findings_key (Z.of_nat k + 1) = Some res.

(** The object after the planning phase of [run]. *)
Definition planned (plan : json) : agent :=
  {| requests := 1;
     reasoning_trace := [Planning plan];
     tools_used := [];
     findings := ∅ |}.

(** The state after the finding and the trace entry of a round have been
    stored ([self.findings[...] = result] and the append that follows it). *)
Definition noted (iteration : Z) (action res : json) (s : agent) : agent :=
  {| requests := requests s;
     reasoning_trace := reasoning_trace s ++ [Investigation iteration action res];
     tools_used := tools_used s;
     findings := <[findings_key iteration := res]> (findings s) |}.

(** The findings hold exactly the keys [iteration_1] to [iteration_n]. *)
Definition findings_exact (n : Z) (s : agent) : Prop :=
  size (findings s) = Z.to_nat n /\
  forall key v, findings s !! key = Some v ->
    exists k, 1 <= k <= n /\ key = findings_key k.

(** The tool log lists, in order, the kinds of the actions of the
    investigation entries, and none of them is ["complete"]. *)
Definition tools_match (trace : list trace_entry) (tools : list json) : Prop :=
  exists plan entries,
    trace = Planning plan :: entries /\
    Forall2 (fun e tool =>
               exists iteration action res,
                 e = Investigation iteration action res /\
                 kind_of action = Some tool /\
                 eq_str tool "complete" = false) entries tools.


(** From [s] to [s'] at most one request was sent, and it was answered. *)
Definition one_request (service : nat -> response) (s s' : agent) : Prop :=
  requests s' = requests s \/
  (requests s' = S (requests s) /\ exists text, service (requests s) = Text text).


(** The object after the planning phase of a [run] that started in [s]. *)
Definition planned_from (plan : json) (s : agent) : agent :=
  {| requests := S (requests s);
     reasoning_trace := reasoning_trace s ++ [Planning plan];
     tools_used := tools_used s;
     findings := findings s |}.



(** ** The title task of [agent/tasks.py]

    Texts are [string]s, one [ascii] for each character.  [str.strip] takes
    the characters it removes from both ends as a predicate: [isspace] (the
    whitespace test of the language, a parameter) for [strip()], and the two
    quote characters for the [strip] that has an argument. *)








(** ** A scripted service and a table decoder for the examples *)

(** The service answers from a list and fails once the list is used up. *)
Definition script (answers : list response) (n : nat) : response :=
  match answers !! n with
  | Some r => r
  | None => Failure
  end.

(** [s] between two double-quote characters (code 34). *)
Definition quoted (s : string) : string :=
  String (Ascii.ascii_of_nat 34) (s +:+ String (Ascii.ascii_of_nat 34) EmptyString).

(** The text of a one-entry JSON object with the key [action]. *)
Definition action_text (kind : string) : string :=
  "{" +:+ quoted "action" +:+ ": " +:+ quoted kind +:+ "}".

(** A decoder that agrees with [json.loads] on the texts of the examples and
    rejects every other text. *)
Definition table_loads (text : string) : option json :=
  if String.eqb text "{}" then Some (JObj [])
  else if String.eqb text "[]" then Some (JArr [])
  else if String.eqb text (action_text "complete")
       then Some (JObj [("action", JStr "complete")])
  else if String.eqb text (action_text "calculate")
       then Some (JObj [("action", JStr "calculate")])
  else if String.eqb text (action_text "summarize")
       then Some (JObj [("action", JStr "summarize")])
  else None.

(** The text [{"continue": true}], and a decoder that knows it as well. *)
Definition continue_text : string :=
  "{" +:+ quoted "continue" +:+ ": true}".

Definition table_loads_continue (text : string) : option json :=
  if String.eqb text continue_text then Some (JObj [("continue", JBool true)])
  else table_loads text.

(** A run of two rounds under a ceiling of 3: both actions are calculations
    and the continuation check is asked, and says yes, after the first. *)
Definition two_rounds : nat -> response :=
  script [Text "plan"; Text (action_text "calculate"); Text continue_text;
          Text (action_text "calculate"); Text "report"].

Section AgenticAI.

(** [json.loads]: [None] when it raises. *)
Variable json_loads : string -> option json.
(** The outcome of the n-th request to the text service. *)
Variable service : nat -> response.
(** [settings.MAX_AGENT_ITERATIONS]. *)
Variable MAX_AGENT_ITERATIONS : Z.

(** [self.client.messages.create(...)] followed by
    [response.content[0].text]. *)
Definition messages_create : M string := fun s =>
  match service (requests s) with
  | Failure => Raise TransportError
  | Text body =>
      Ok (body, {| requests := S (requests s);
                   reasoning_trace := reasoning_trace s;
                   tools_used := tools_used s;
                   findings := findings s |})
  end.

Definition _create_analysis_plan : M json :=
  let* plan_text := messages_create in
  ret (match json_loads plan_text with
       | Some plan => plan
       | None => JObj [("raw_plan", JStr plan_text)]
       end).

Definition _decide_next_action (plan : json) (iteration : Z) : M json :=
  let* text := messages_create in
  ret (match json_loads text with
       | Some action => action
       | None => fallback_action
       end).

Definition _perform_analysis (action : json) : M json :=
  let* text := messages_create in
  ret (match json_loads text with
       | Some v => v
       | None => JObj [("insight", JStr text)]
       end).

Definition _perform_calculation (action : json) : M json :=
  ret (JObj [("calculation", JStr "performed"); ("action", action)]).

Definition _perform_comparison (action : json) : M json :=
  ret (JObj [("comparison", JStr "completed"); ("action", action)]).

Definition _investigate_anomaly (action : json) : M json :=
  ret (JObj [("anomaly_investigation", JStr "completed"); ("action", action)]).

Definition _execute_action (action : json) : M json :=
  let* action_type := get action "action" (JStr "analyze") in
  let* res := (if eq_str action_type "analyze" then _perform_analysis action
          else if eq_str action_type "calculate" then _perform_calculation action
          else if eq_str action_type "compare" then _perform_comparison action
          else if eq_str action_type "investigate_anomaly" then _investigate_anomaly action
          else ret (JObj [("status", JStr "unknown_action")])) in
  do* tools_append action_type in
  ret res.

(** The [try] covers both the decoding and the [.get], so a decoded value
    that is not a dict gives [False] as well. *)
Definition _should_continue_investigation (res : json) (iteration : Z) : M json :=
  if iteration >=? MAX_AGENT_ITERATIONS - 1 then ret (JBool false)
  else
    let* text := messages_create in
    ret (match json_loads text with
         | Some (JObj fields) =>
             match assoc "continue" fields with
             | Some v => v
             | None => JBool false
             end
         | _ => JBool false
         end).

Definition _synthesize_report : M string := fun s =>
  match reasoning_trace s with
  | [] => Raise IndexError          (* self.reasoning_trace[0] *)
  | _ :: _ => messages_create s
  end.

(** The [while] loop of [run], from the test of its condition.  The value
    is the local [iteration] when the loop is left, or [None] when [fuel]
    rounds were not enough to leave it. *)
Fixpoint investigation_loop (fuel : nat) (plan : json)
    (investigation_complete : bool) (iteration : Z) : M (option Z) :=
  if negb investigation_complete && (iteration <? MAX_AGENT_ITERATIONS) then
    match fuel with
    | O => ret None
    | S fuel' =>
        let iteration := iteration + 1 in
        let* next_action := _decide_next_action plan iteration in
        let* kind := getitem next_action "action" in
        if eq_str kind "complete" then ret (Some iteration)
        else
          let* res := _execute_action next_action in
          do* findings_set (findings_key iteration) res in
          do* trace_append (Investigation iteration next_action res) in
          let* continue := _should_continue_investigation res iteration in
          if truthy continue
          then investigation_loop fuel' plan false iteration
          else investigation_loop fuel' plan true iteration
    end
  else ret (Some iteration).

(** The result dict is built from the fields of the object. *)
Definition result_dict (final_report : string) : M AgentRunResult := fun s =>
  Ok ({| report := final_report;
         rr_reasoning_trace := reasoning_trace s;
         rr_tools_used := tools_used s;
         rr_findings := findings s |}, s).

(** [run], returning next to the result dict the value its local
    [iteration] had when the loop was left. *)
Definition run_rounds (fuel : nat) : M (option (Z * AgentRunResult)) :=
  let* plan := _create_analysis_plan in
  do* trace_append (Planning plan) in
  let* left := investigation_loop fuel plan false 0 in
  match left with
  | None => ret None
  | Some iteration =>
      let* final_report := _synthesize_report in
      let* r := result_dict final_report in
      ret (Some (iteration, r))
  end.

(** The loop is left after at most [MAX_AGENT_ITERATIONS] rounds
    ([investigation_loop_fuel] below), so this much fuel is enough. *)
Definition run : M (option AgentRunResult) :=
  let* out := run_rounds (Z.to_nat MAX_AGENT_ITERATIONS) in
  ret (snd <$> out).

(** ** The monad: inversion of a successful computation *)

Lemma bind_ok {A B} (c : M A) (k : A -> M B) s b s' :
bind c k s = Ok (b, s') ->
exists a s1, c s = Ok (a, s1) /\ k a s1 = Ok (b, s').
Proof.
unfold bind. destruct (c s) as [[a s1]|e]; [|discriminate].
intros H. by exists a, s1.
Qed.

Lemma bind_step {A B} (c : M A) (k : A -> M B) s a s1 :
c s = Ok (a, s1) -> bind c k s = k a s1.
Proof. unfold bind. by intros ->. Qed.

Lemma bind_raise {A B} (c : M A) (k : A -> M B) s e :
c s = Raise e -> bind c k s = Raise e.
Proof. unfold bind. by intros ->. Qed.

Lemma same_data_refl s : same_data s s.
Proof. by repeat split. Qed.

Lemma same_data_requested s : same_data s (requested s).
Proof. by repeat split. Qed.

Lemma same_data_trans s1 s2 s3 :
same_data s1 s2 -> same_data s2 s3 -> same_data s1 s3.
Proof.
intros (? & ? & ?) (? & ? & ?). repeat split; congruence.
Qed.




Lemma messages_create_text s text :
  service (requests s) = Text text ->
  messages_create s = Ok (text, requested s).
Proof. unfold messages_create. by intros ->. Qed.

Lemma messages_create_failure s :
  service (requests s) = Failure ->
  messages_create s = Raise TransportError.
Proof. unfold messages_create. by intros ->. Qed.

Lemma messages_create_ok s text s' :
  messages_create s = Ok (text, s') ->
  service (requests s) = Text text /\ s' = requested s.
Proof.
  unfold messages_create. destruct (service (requests s)); [discriminate|].
  by intros [= <- <-].
Qed.


Lemma decide_next_action_ok plan iteration s action s' :
  _decide_next_action plan iteration s = Ok (action, s') ->
  exists text,
    service (requests s) = Text text /\ s' = requested s /\
    action = match json_loads text with
             | Some a => a
             | None => fallback_action
             end.
Proof.
  intros H. apply bind_ok in H as (text & s1 & Hc & Hr).
  apply messages_create_ok in Hc as [Hs ->].
  injection Hr as <- <-. by exists text.
Qed.

Lemma getitem_ok value key s v s' :
  getitem value key s = Ok (v, s') ->
  s' = s /\ exists fields, value = JObj fields /\ assoc key fields = Some v.
Proof.
  destruct value; try discriminate. simpl.
  destruct (assoc key fields) eqn:E; [|discriminate].
  intros [= <- <-]. eauto.
Qed.

Lemma getitem_kind value s :
  getitem value "action" s =
  match kind_of value with
  | Some kind => Ok (kind, s)
  | None => Raise (match value with JObj _ => KeyError | _ => TypeError end)
  end.
Proof.
  destruct value; try reflexivity. simpl. by destruct (assoc _ _).
Qed.

Lemma execute_action_ok action s res s' :
  _execute_action action s = Ok (res, s') ->
  exists kind,
    reasoning_trace s' = reasoning_trace s /\
    tools_used s' = tools_used s ++ [kind] /\
    findings s' = findings s.
Proof.
  intros H. apply bind_ok in H as (kind & s1 & Hg & H).
  assert (s1 = s) as ->.
  { destruct action; try discriminate. simpl in Hg.
    destruct (assoc _ _); by injection Hg as <- <-. }
  apply bind_ok in H as (r & s2 & Hp & H).
  assert (same_data s s2) as (Ht & Hu & Hf).
  { destruct (eq_str kind "analyze").
    { apply bind_ok in Hp as (text & s3 & Hc & Hr).
      apply messages_create_ok in Hc as [_ ->].
      injection Hr as _ <-. apply same_data_requested. }
    repeat (match type of Hp with
            | (if ?b then _ else _) _ = _ => destruct b
            end);
      injection Hp as _ <-; apply same_data_refl. }
  apply bind_ok in H as ([] & s3 & Ha & H).
  injection Ha as <-. injection H as _ <-. simpl.
  exists kind. by rewrite Ht, Hu, Hf.
Qed.

Lemma should_continue_ok res iteration s v s' :
  _should_continue_investigation res iteration s = Ok (v, s') ->
  same_data s s'.
Proof.
  unfold _should_continue_investigation.
  destruct (iteration >=? MAX_AGENT_ITERATIONS - 1).
  - intros [= _ <-]. apply same_data_refl.
  - intros H. apply bind_ok in H as (text & s1 & Hc & Hr).
    apply messages_create_ok in Hc as [_ ->].
    injection Hr as _ <-. apply same_data_requested.
Qed.

(** ** The continuation check *)

(** C2.  At [iteration >= MAX_AGENT_ITERATIONS - 1] the check answers
    [False] at once: the value is [False] and the state, with its count of
    requests, is the one it was called in, so no request is sent and the
    answer does not depend on the service or on the decoder. *)
Theorem should_continue_ceiling res iteration s :
  iteration >= MAX_AGENT_ITERATIONS - 1 ->
  _should_continue_investigation res iteration s = Ok (JBool false, s).
Proof.
  intros Hge. unfold _should_continue_investigation.
  destruct (Z.geb_spec iteration (MAX_AGENT_ITERATIONS - 1)) as [_|Hlt].
  - reflexivity.
  - lia.
Qed.

(** C10.  Below the ceiling, an answer that decodes to a dict without the
    key ['continue'] gives [False]: the default of [.get] applies. *)
Theorem should_continue_missing_key res iteration s text fields :
  iteration < MAX_AGENT_ITERATIONS - 1 ->
  service (requests s) = Text text ->
  json_loads text = Some (JObj fields) ->
  assoc "continue" fields = None ->
  _should_continue_investigation res iteration s = Ok (JBool false, requested s).
Proof.
  intros Hlt Hs Hd Hk. unfold _should_continue_investigation.
  destruct (Z.geb_spec iteration (MAX_AGENT_ITERATIONS - 1)) as [Hge|_].
  - lia.
  - rewrite (bind_step _ _ _ _ _ (messages_create_text _ _ Hs)).
    by rewrite Hd, Hk.
Qed.

(** ** The dispatch of [_execute_action] *)

(** C9.  A dict without the key ['action'] is handed to the analyze
    provider, and ["analyze"] is what is appended to the tool log. *)
Theorem execute_action_default_kind fields s :
  assoc "action" fields = None ->
  _execute_action (JObj fields) s =
  (let* res := _perform_analysis (JObj fields) in
   do* tools_append (JStr "analyze") in
   ret res) s.
Proof.
  intros Hk. unfold _execute_action, get. rewrite Hk. reflexivity.
Qed.

Lemma execute_action_unregistered fields kind s :
  (match assoc "action" fields with Some k => k | None => JStr "analyze" end) = kind ->
  registered kind = false ->
  _execute_action (JObj fields) s =
  Ok (JObj [("status", JStr "unknown_action")],
      {| requests := requests s;
         reasoning_trace := reasoning_trace s;
         tools_used := tools_used s ++ [kind];
         findings := findings s |}).
Proof.
  intros Hk Hr. unfold registered in Hr.
  apply orb_false_iff in Hr as [Hr H4].
  apply orb_false_iff in Hr as [Hr H3].
  apply orb_false_iff in Hr as [H1 H2].
  unfold _execute_action, get.
  assert ((match assoc "action" fields with
           | Some v => ret v
           | None => ret (JStr "analyze")
           end) s = Ok (kind, s)) as Hg.
  { rewrite <- Hk. by destruct (assoc "action" fields). }
  rewrite (bind_step _ _ _ _ _ Hg).
  rewrite H1, H2, H3, H4. reflexivity.
Qed.

(** The loop, once its condition holds and there is fuel for a round. *)
Lemma investigation_loop_round fuel plan iteration s :
  iteration < MAX_AGENT_ITERATIONS ->
  investigation_loop (S fuel) plan false iteration s =
  (let* next_action := _decide_next_action plan (iteration + 1) in
   let* kind := getitem next_action "action" in
   if eq_str kind "complete" then ret (Some (iteration + 1))
   else
     let* res := _execute_action next_action in
     do* findings_set (findings_key (iteration + 1)) res in
     do* trace_append (Investigation (iteration + 1) next_action res) in
     let* continue := _should_continue_investigation res (iteration + 1) in
     if truthy continue
     then investigation_loop fuel plan false (iteration + 1)
     else investigation_loop fuel plan true (iteration + 1)) s.
Proof.
  intros Hlt. simpl.
  destruct (Z.ltb_spec iteration MAX_AGENT_ITERATIONS) as [_|Hge]; [|lia].
  reflexivity.
Qed.

(** The loop is left at once when the flag is set or the ceiling reached. *)
Lemma investigation_loop_exit fuel plan complete iteration s :
  complete = true \/ MAX_AGENT_ITERATIONS <= iteration ->
  investigation_loop fuel plan complete iteration s = Ok (Some iteration, s).
Proof.
  intros H.
  assert (negb complete && (iteration <? MAX_AGENT_ITERATIONS) = false) as Hc.
  { destruct H as [->|H]; [reflexivity|].
    apply andb_false_iff. right. by apply Z.ltb_ge. }
  destruct fuel; simpl; by rewrite Hc.
Qed.

(** C7.  An action whose kind (the ['action'] entry, ["analyze"] when it is
    missing) is none of the four registered ones gets the result
    [{"status": "unknown_action"}]; nothing is raised, no request is sent and
    the kind is appended to the tool log.  In the loop the round goes on as
    for any other result: the finding and the trace entry are recorded and
    the continuation check is what decides how the loop proceeds. *)
Theorem execute_action_unknown_kind fields kind s :
  (match assoc "action" fields with Some k => k | None => JStr "analyze" end) = kind ->
  registered kind = false ->
  _execute_action (JObj fields) s =
    Ok (JObj [("status", JStr "unknown_action")],
        {| requests := requests s;
           reasoning_trace := reasoning_trace s;
           tools_used := tools_used s ++ [kind];
           findings := findings s |}) /\
  forall fuel plan iteration text,
    iteration < MAX_AGENT_ITERATIONS ->
    service (requests s) = Text text ->
    json_loads text = Some (JObj fields) ->
    assoc "action" fields = Some kind ->
    eq_str kind "complete" = false ->
    investigation_loop (S fuel) plan false iteration s =
    (let* continue :=
       _should_continue_investigation
         (JObj [("status", JStr "unknown_action")]) (iteration + 1) in
     if truthy continue
     then investigation_loop fuel plan false (iteration + 1)
     else investigation_loop fuel plan true (iteration + 1))
      (recorded (iteration + 1) (JObj fields) kind
         (JObj [("status", JStr "unknown_action")]) (requested s)).
Proof.
  intros Hk Hr. split.
  - by apply execute_action_unregistered.
  - intros fuel plan iteration text Hlt Hs Hd Ha Hc.
    rewrite investigation_loop_round by done.
    unfold _decide_next_action.
    rewrite (bind_step _ _ _ _ _
               (bind_step _ _ _ _ _ (messages_create_text _ _ Hs))).
    unfold ret at 1. rewrite Hd.
    assert (getitem (JObj fields) "action" (requested s) = Ok (kind, requested s))
      as Hg by (simpl; by rewrite Ha).
    rewrite (bind_step _ _ _ _ _ Hg), Hc.
    rewrite (bind_step _ _ _ _ _
               (execute_action_unregistered fields kind (requested s) Hk Hr)).
    reflexivity.
Qed.

(** ** The fallback of [_decide_next_action] *)

(** C6, as amended.  A text that [json.loads] rejects gives the fallback
    action, whose kind is ["complete"] and whose reasoning is
    ["Unable to parse action, completing analysis"]; in the loop that round
    leaves the loop, with nothing executed or recorded. *)
Theorem decide_next_action_fallback plan iteration s text :
  service (requests s) = Text text ->
  json_loads text = None ->
  _decide_next_action plan iteration s = Ok (fallback_action, requested s) /\
  kind_of fallback_action = Some (JStr "complete") /\
  forall fuel,
    iteration < MAX_AGENT_ITERATIONS ->
    investigation_loop (S fuel) plan false iteration s =
    Ok (Some (iteration + 1), requested s).
Proof.
  intros Hs Hd.
  assert (forall i, _decide_next_action plan i s = Ok (fallback_action, requested s))
    as Hf.
  { intros i. unfold _decide_next_action.
    rewrite (bind_step _ _ _ _ _ (messages_create_text _ _ Hs)).
    unfold ret. by rewrite Hd. }
  split; [apply Hf|]. split; [reflexivity|].
  intros fuel Hlt. rewrite investigation_loop_round by done.
  rewrite (bind_step _ _ _ _ _ (Hf _)). reflexivity.
Qed.

(** ** What the loop keeps true *)

Lemma findings_key_inj a b : findings_key a = findings_key b -> a = b.
Proof.
  unfold findings_key. simpl. intros H.
  repeat (injection H as H). by apply (inj pretty).
Qed.

Lemma rounds_recorded_same n s s' :
  rounds_recorded n s -> same_data s s' -> rounds_recorded n s'.
Proof.
  intros (plan & entries & Ht & Hn & Hu & Hf) (Et & Eu & Ef).
  exists plan, entries. rewrite Et, Eu, Ef. done.
Qed.

Lemma rounds_recorded_step n s s' action kind res :
  rounds_recorded n s ->
  reasoning_trace s' = reasoning_trace s ++ [Investigation (n + 1) action res] ->
  tools_used s' = tools_used s ++ [kind] ->
  findings s' = <[findings_key (n + 1) := res]> (findings s) ->
  rounds_recorded (n + 1) s'.
Proof.
  intros (plan & entries & Ht & Hn & Hu & Hf) Et Eu Ef.
  exists plan, (entries ++ [Investigation (n + 1) action res]).
  rewrite Et, Eu, Ef, Ht. repeat split.
  - rewrite length_app. simpl. lia.
  - rewrite !length_app. simpl. lia.
  - intros k e Hk.
    destruct (decide (k < length entries)%nat) as [Hlt|Hge].
    + rewrite lookup_app_l in Hk by done.
      destruct (Hf k e Hk) as (a & r & -> & Hr).
      exists a, r. split; [done|].
      rewrite lookup_insert_ne; [done|].
      intros E. apply findings_key_inj in E. lia.
    + rewrite lookup_app_r in Hk by lia.
      destruct (k - length entries)%nat as [|j] eqn:Ej; [|by destruct j].
      injection Hk as <-.
      assert (Z.of_nat k + 1 = n + 1) as -> by lia.
      exists action, res. split; [done|]. apply lookup_insert_eq.
Qed.

Lemma investigated_all entries :
  Forall (fun e => is_investigation e = true) entries ->
  length (filter (fun e => is_investigation e = true) entries) = length entries.
Proof.
  induction 1 as [|e entries He _ IH]; [done|].
  rewrite filter_cons_True by done. simpl. by rewrite IH.
Qed.

Lemma rounds_recorded_entries n s :
  rounds_recorded n s ->
  Z.of_nat (investigation_entries (reasoning_trace s)) = n /\
  length (tools_used s) = investigation_entries (reasoning_trace s) /\
  trace_well_formed (reasoning_trace s) (findings s).
Proof.
  intros (plan & entries & Ht & Hn & Hu & Hf).
  assert (investigation_entries (reasoning_trace s) = length entries) as Hc.
  { rewrite Ht. unfold investigation_entries.
    rewrite filter_cons_False by (simpl; discriminate).
    apply investigated_all, Forall_lookup.
    intros k e Hk. by destruct (Hf k e Hk) as (a & r & -> & _). }
  rewrite Hc. repeat split; [done|done|]. by exists plan, entries.
Qed.

(** One pass through the loop that executes its action. *)
Lemma round_recorded n s next_action res s2 continue s5 :
  rounds_recorded n s ->
  _execute_action next_action s = Ok (res, s2) ->
  (do* findings_set (findings_key (n + 1)) res in
   do* trace_append (Investigation (n + 1) next_action res) in
   _should_continue_investigation res (n + 1)) s2 = Ok (continue, s5) ->
  rounds_recorded (n + 1) s5.
Proof.
  intros Hinv He H.
  apply execute_action_ok in He as (kind & Et & Eu & Ef).
  apply bind_ok in H as ([] & s3 & H3 & H). injection H3 as <-.
  apply bind_ok in H as ([] & s4 & H4 & H). injection H4 as <-.
  apply should_continue_ok in H.
  eapply rounds_recorded_same; [|exact H].
  eapply rounds_recorded_step with (action := next_action) (kind := kind);
    [exact Hinv|simpl..].
  - by rewrite Et.
  - done.
  - by rewrite Ef.
Qed.

(** The loop from a state with [iteration] rounds recorded: where it is
    left, and what has been recorded by then. *)
Lemma investigation_loop_spec fuel :
  forall plan complete iteration s left s',
    rounds_recorded iteration s ->
    investigation_loop fuel plan complete iteration s = Ok (Some left, s') ->
    iteration <= left /\
    left <= Z.max iteration MAX_AGENT_ITERATIONS /\
    (complete = false -> iteration < MAX_AGENT_ITERATIONS -> iteration < left) /\
    (rounds_recorded left s' \/ rounds_recorded (left - 1) s').
Proof.
  induction fuel as [|fuel IH]; intros plan complete iteration s left s' Hinv H.
  - simpl in H.
    destruct (negb complete && (iteration <? MAX_AGENT_ITERATIONS)) eqn:Hc;
      [discriminate|].
    injection H as <- <-. apply andb_false_iff in Hc.
    repeat split; [lia|lia| |by left].
    intros -> Hlt. destruct Hc as [Hc|Hc]; [discriminate|].
    apply Z.ltb_ge in Hc. lia.
  - destruct complete.
    { rewrite investigation_loop_exit in H by (by left).
      injection H as <- <-. repeat split; [lia|lia|discriminate|by left]. }
    destruct (Z.lt_ge_cases iteration MAX_AGENT_ITERATIONS) as [Hlt|Hge].
    2:{ rewrite investigation_loop_exit in H by (by right).
        injection H as <- <-. repeat split; [lia|lia|lia|by left]. }
    rewrite investigation_loop_round in H by done.
    apply bind_ok in H as (next_action & s1 & Hd & H).
    apply decide_next_action_ok in Hd as (text & _ & -> & _).
    apply bind_ok in H as (kind & s1' & Hg & H).
    apply getitem_ok in Hg as [-> _].
    pose proof (rounds_recorded_same _ _ _ Hinv (same_data_requested s)) as Hinv1.
    destruct (eq_str kind "complete").
    { injection H as <- <-. repeat split; [lia|lia|lia|].
      right. by replace (iteration + 1 - 1) with iteration by lia. }
    apply bind_ok in H as (res & s2 & He & H).
    assert (exists continue s5,
      (do* findings_set (findings_key (iteration + 1)) res in
       do* trace_append (Investigation (iteration + 1) next_action res) in
       _should_continue_investigation res (iteration + 1)) s2
        = Ok (continue, s5) /\
      investigation_loop fuel plan (negb (truthy continue)) (iteration + 1) s5
        = Ok (Some left, s')) as (continue & s5 & Hr & Hl).
    { apply bind_ok in H as ([] & s3 & H3 & H).
      apply bind_ok in H as ([] & s4 & H4 & H).
      apply bind_ok in H as (continue & s5 & H5 & H).
      exists continue, s5. split.
      - rewrite (bind_step _ _ _ _ _ H3), (bind_step _ _ _ _ _ H4). exact H5.
      - by destruct (truthy continue). }
    pose proof (round_recorded _ _ _ _ _ _ _ Hinv1 He Hr) as Hinv5.
    destruct (IH _ _ _ _ _ _ Hinv5 Hl) as (Hle & Hmax & _ & Hrec).
    repeat split; [lia|lia|lia|exact Hrec].
Qed.

(** The loop is left within [MAX_AGENT_ITERATIONS - iteration] rounds. *)
Lemma investigation_loop_fuel fuel :
  forall plan complete iteration s s',
    MAX_AGENT_ITERATIONS - iteration <= Z.of_nat fuel ->
    investigation_loop fuel plan complete iteration s <> Ok (None, s').
Proof.
  induction fuel as [|fuel IH]; intros plan complete iteration s s' Hf.
  - rewrite investigation_loop_exit by (right; lia). discriminate.
  - destruct complete.
    { rewrite investigation_loop_exit by (by left). discriminate. }
    destruct (Z.lt_ge_cases iteration MAX_AGENT_ITERATIONS) as [Hlt|Hge].
    2:{ rewrite investigation_loop_exit by (by right). discriminate. }
    rewrite investigation_loop_round by done. intros H.
    apply bind_ok in H as (next_action & s1 & _ & H).
    apply bind_ok in H as (kind & s1' & _ & H).
    destruct (eq_str kind "complete"); [discriminate|].
    apply bind_ok in H as (res & s2 & _ & H).
    apply bind_ok in H as ([] & s3 & _ & H).
    apply bind_ok in H as ([] & s4 & _ & H).
    apply bind_ok in H as (continue & s5 & _ & H).
    destruct (truthy continue); apply IH in H; try done; lia.
Qed.

(** More fuel does not change what the loop gives once it gave something. *)
Lemma investigation_loop_more_fuel fuel :
  forall plan complete iteration s out,
    investigation_loop fuel plan complete iteration s = out ->
    (forall s', out <> Ok (None, s')) ->
    investigation_loop (S fuel) plan complete iteration s = out.
Proof.
  induction fuel as [|fuel IH]; intros plan complete iteration s out H Hout.
  - simpl in H |- *.
    destruct (negb complete && (iteration <? MAX_AGENT_ITERATIONS)); [|done].
    subst out. by destruct (Hout s).
  - destruct complete.
    { rewrite investigation_loop_exit in * by (by left). done. }
    destruct (Z.lt_ge_cases iteration MAX_AGENT_ITERATIONS) as [Hlt|Hge].
    2:{ rewrite investigation_loop_exit in * by (by right). done. }
    rewrite investigation_loop_round in * by done.
    subst out. unfold bind in Hout |- *.
    destruct (_decide_next_action _ _ _) as [[next_action s1]|]; [|done].
    destruct (getitem _ _ _) as [[kind s1']|]; [|done].
    destruct (eq_str kind "complete"); [done|].
    destruct (_execute_action _ _) as [[res s2]|]; [|done].
    destruct (findings_set _ _ _) as [[[] s3]|]; [|done].
    destruct (trace_append _ _) as [[[] s4]|]; [|done].
    destruct (_should_continue_investigation _ _ _) as [[continue s5]|]; [|done].
    destruct (truthy continue); by apply IH.
Qed.

(** Any fuel from [MAX_AGENT_ITERATIONS - iteration] on gives the same loop. *)
Lemma investigation_loop_enough fuel fuel' plan complete iteration s :
  MAX_AGENT_ITERATIONS - iteration <= Z.of_nat fuel ->
  (fuel <= fuel')%nat ->
  investigation_loop fuel' plan complete iteration s
  = investigation_loop fuel plan complete iteration s.
Proof.
  intros Hf Hle. induction Hle as [|fuel' Hle IH]; [done|].
  apply investigation_loop_more_fuel; [exact IH|].
  intros s'. by apply investigation_loop_fuel.
Qed.

(** [run] with more fuel than it is given is the same function. *)
Lemma run_rounds_enough fuel s :
  (Z.to_nat MAX_AGENT_ITERATIONS <= fuel)%nat ->
  run_rounds fuel s = run_rounds (Z.to_nat MAX_AGENT_ITERATIONS) s.
Proof.
  intros Hle. unfold run_rounds, bind.
  destruct (_create_analysis_plan s) as [[plan s1]|]; [|done].
  destruct (trace_append _ _) as [[[] s2]|]; [|done].
  rewrite (investigation_loop_enough (Z.to_nat MAX_AGENT_ITERATIONS) fuel)
    by (done || lia).
  done.
Qed.

(** ** A rule for the loop, and what each method does to the state *)

Lemma execute_action_kind action kind s res s2 :
  kind_of action = Some kind ->
  _execute_action action s = Ok (res, s2) ->
  reasoning_trace s2 = reasoning_trace s /\
  tools_used s2 = tools_used s ++ [kind] /\
  findings s2 = findings s /\
  one_request service s s2.
Proof.
  intros Hk H. destruct action; try discriminate. simpl in Hk.
  unfold _execute_action, get in H. rewrite Hk in H.
  change (bind (ret kind) ?k s) with (k kind s) in H.
  apply bind_ok in H as (r & s1 & Hp & H).
  apply bind_ok in H as ([] & s3 & Ha & H).
  injection Ha as <-. injection H as _ <-. simpl.
  assert (same_data s s1 /\ one_request service s s1) as [(Et & Eu & Ef) Hr].
  { destruct (eq_str kind "analyze").
    { apply bind_ok in Hp as (text & s4 & Hc & Hr).
      apply messages_create_ok in Hc as [Hs ->]. injection Hr as _ <-.
      split; [apply same_data_requested|]. right. simpl. eauto. }
    repeat (match type of Hp with
            | (if ?b then _ else _) _ = _ => destruct b
            end);
      injection Hp as _ <-; (split; [apply same_data_refl|by left]). }
  by rewrite Et, Eu, Ef.
Qed.


Lemma should_continue_cases res iteration s v s' :
  _should_continue_investigation res iteration s = Ok (v, s') ->
  same_data s s' /\ one_request service s s' /\
  (MAX_AGENT_ITERATIONS - 1 <= iteration -> s' = s /\ v = JBool false) /\
  (truthy v = true ->
   iteration < MAX_AGENT_ITERATIONS - 1 /\
   exists text fields,
     service (requests s) = Text text /\
     json_loads text = Some (JObj fields) /\
     assoc "continue" fields = Some v).
Proof.
  unfold _should_continue_investigation.
  destruct (Z.geb_spec iteration (MAX_AGENT_ITERATIONS - 1)) as [Hge|Hlt].
  - intros [= <- <-].
    split; [apply same_data_refl|]. split; [by left|]. split; [done|].
    intros Hv. discriminate Hv.
  - intros H. apply bind_ok in H as (text & s1 & Hc & Hr).
    apply messages_create_ok in Hc as [Hs ->]. injection Hr as <- <-.
    split; [apply same_data_requested|]. split; [right; simpl; eauto|].
    split; [lia|]. intros Hv. split; [done|]. exists text.
    destruct (json_loads text) as [[]|]; try discriminate Hv.
    destruct (assoc "continue" fields) eqn:Ea; [|discriminate Hv].
    eauto.
Qed.


(** A decoded action that has a kind, as the loop meets it after the
    subscript. *)
Lemma decided_kind plan iteration s next_action s1 kind s1' :
  _decide_next_action plan iteration s = Ok (next_action, s1) ->
  getitem next_action "action" s1 = Ok (kind, s1') ->
  s1 = requested s /\ s1' = requested s /\ kind_of next_action = Some kind /\
  exists text, service (requests s) = Text text.
Proof.
  intros Hd Hg.
  apply decide_next_action_ok in Hd as (text & Hs & -> & _).
  rewrite getitem_kind in Hg.
  destruct (kind_of next_action); [|discriminate].
  injection Hg as <- <-. eauto.
Qed.

(** The rule: [I] holds whenever the condition of the loop is tested, with
    the flag and the counter it is tested with; [J] holds where the loop is
    left. *)
Lemma investigation_loop_rule
    (I : bool -> Z -> agent -> Prop) (J : Z -> agent -> Prop) plan :
  (forall complete iteration s,
     I complete iteration s ->
     complete = true \/ MAX_AGENT_ITERATIONS <= iteration ->
     J iteration s) ->
  (forall iteration s next_action kind,
     I false iteration s ->
     iteration < MAX_AGENT_ITERATIONS ->
     _decide_next_action plan (iteration + 1) s = Ok (next_action, requested s) ->
     kind_of next_action = Some kind ->
     eq_str kind "complete" = true ->
     J (iteration + 1) (requested s)) ->
  (forall iteration s next_action kind res s2 continue s5,
     I false iteration s ->
     iteration < MAX_AGENT_ITERATIONS ->
     _decide_next_action plan (iteration + 1) s = Ok (next_action, requested s) ->
     kind_of next_action = Some kind ->
     eq_str kind "complete" = false ->
     _execute_action next_action (requested s) = Ok (res, s2) ->
     _should_continue_investigation res (iteration + 1)
       (noted (iteration + 1) next_action res s2) = Ok (continue, s5) ->
     I (negb (truthy continue)) (iteration + 1) s5) ->
  forall fuel complete iteration s left s',
    I complete iteration s ->
    investigation_loop fuel plan complete iteration s = Ok (Some left, s') ->
    J left s'.
Proof.
  intros Hexit Hdone Hstep.
  induction fuel as [|fuel IH]; intros complete iteration s left s' HI H.
  - simpl in H.
    destruct (negb complete && (iteration <? MAX_AGENT_ITERATIONS)) eqn:Hc;
      [discriminate|].
    injection H as <- <-. apply (Hexit complete); [done|].
    apply andb_false_iff in Hc as [Hc|Hc].
    + left. by destruct complete.
    + right. by apply Z.ltb_ge.
  - destruct complete.
    { rewrite investigation_loop_exit in H by (by left).
      injection H as <- <-. apply (Hexit true); auto. }
    destruct (Z.lt_ge_cases iteration MAX_AGENT_ITERATIONS) as [Hlt|Hge].
    2:{ rewrite investigation_loop_exit in H by (by right).
        injection H as <- <-. apply (Hexit false); auto. }
    rewrite investigation_loop_round in H by done.
    apply bind_ok in H as (next_action & s1 & Hd & H).
    apply bind_ok in H as (kind & s1' & Hg & H).
    destruct (decided_kind _ _ _ _ _ _ _ Hd Hg) as (-> & -> & Hk & _).
    destruct (eq_str kind "complete") eqn:Hc.
    { injection H as <- <-. by eapply Hdone. }
    apply bind_ok in H as (res & s2 & He & H).
    apply bind_ok in H as ([] & s3 & H3 & H). injection H3 as <-.
    apply bind_ok in H as ([] & s4 & H4 & H). injection H4 as <-.
    apply bind_ok in H as (continue & s5 & H5 & H).
    assert (investigation_loop fuel plan (negb (truthy continue))
              (iteration + 1) s5 = Ok (Some left, s')) as Hl
      by (by destruct (truthy continue)).
    eapply IH; [|exact Hl]. by eapply Hstep.
Qed.

(** ** The whole run *)

Lemma rounds_recorded_planned plan : rounds_recorded 0 (planned plan).
Proof.
  exists plan, []. repeat split. intros k e Hk. by destruct k.
Qed.

Lemma run_rounds_planned fuel text :
  service 0%nat = Text text ->
  run_rounds fuel init =
  (let* left := investigation_loop fuel
                  (match json_loads text with
                   | Some plan => plan
                   | None => JObj [("raw_plan", JStr text)]
                   end) false 0 in
   match left with
   | None => ret None
   | Some iteration =>
       let* final_report := _synthesize_report in
       let* r := result_dict final_report in
       ret (Some (iteration, r))
   end)
    (planned (match json_loads text with
              | Some plan => plan
              | None => JObj [("raw_plan", JStr text)]
              end)).
Proof.
  intros Hs. unfold run_rounds, _create_analysis_plan.
  assert (messages_create init = Ok (text, requested init)) as Hc
    by (by apply messages_create_text).
  rewrite (bind_step _ _ _ _ _ (bind_step _ _ _ _ _ Hc)).
  reflexivity.
Qed.

Lemma synthesize_report_ok s text s' :
  _synthesize_report s = Ok (text, s') -> same_data s s'.
Proof.
  unfold _synthesize_report. destruct (reasoning_trace s); [discriminate|].
  intros H. apply messages_create_ok in H as [_ ->]. apply same_data_requested.
Qed.

(** A run that returns: the plan, the loop and the fields of the result. *)
Lemma run_rounds_ok fuel left r s' :
  run_rounds fuel init = Ok (Some (left, r), s') ->
  exists plan s2,
    investigation_loop fuel plan false 0 (planned plan) = Ok (Some left, s2) /\
    rr_reasoning_trace r = reasoning_trace s2 /\
    rr_tools_used r = tools_used s2 /\
    rr_findings r = findings s2.
Proof.
  intros H. destruct (service 0%nat) as [|text] eqn:Hs.
  { unfold run_rounds, _create_analysis_plan in H.
    rewrite (bind_raise _ _ _ _ (bind_raise _ _ _ _
               (messages_create_failure init Hs))) in H.
    discriminate. }
  rewrite (run_rounds_planned _ _ Hs) in H.
  apply bind_ok in H as (out & s2 & Hl & H).
  destruct out as [iteration|]; [|discriminate].
  apply bind_ok in H as (final_report & s3 & Hr & H).
  apply synthesize_report_ok in Hr as (Et & Eu & Ef).
  apply bind_ok in H as (r' & s4 & Hd & H).
  injection Hd as <- <-. injection H as <- <- <-.
  eexists _, s2. split; [exact Hl|]. simpl. by rewrite Et, Eu, Ef.
Qed.

Lemma run_ok r s' :
  run init = Ok (Some r, s') ->
  exists left, run_rounds (Z.to_nat MAX_AGENT_ITERATIONS) init
               = Ok (Some (left, r), s').
Proof.
  intros H. apply bind_ok in H as (out & s1 & Hr & H).
  injection H as H <-. destruct out as [[left r']|]; [|discriminate].
  injection H as <-. by exists left.
Qed.

(** C3, as amended.  With [MAX_AGENT_ITERATIONS >= 1] the run never runs
    out of rounds: it returns or raises.  When it returns, the number of
    rounds begun (the local [iteration] at the end of the loop) is between 1
    and [MAX_AGENT_ITERATIONS]; the number of investigation entries of the
    trace is that number or one less, and it is the length of the tool log. *)
Theorem run_rounds_bounded :
  1 <= MAX_AGENT_ITERATIONS ->
  (forall s', run init <> Ok (None, s')) /\
  forall left r s',
    run_rounds (Z.to_nat MAX_AGENT_ITERATIONS) init = Ok (Some (left, r), s') ->
    1 <= left <= MAX_AGENT_ITERATIONS /\
    (Z.of_nat (investigation_entries (rr_reasoning_trace r)) = left \/
     Z.of_nat (investigation_entries (rr_reasoning_trace r)) = left - 1) /\
    length (rr_tools_used r) = investigation_entries (rr_reasoning_trace r).
Proof.
  intros Hmax. split.
  - intros s' H. apply bind_ok in H as (out & s1 & Hr & H).
    injection H as H <-. destruct out as [[left r]|]; [discriminate|].
    clear H. destruct (service 0%nat) as [|text] eqn:Hs.
    { unfold run_rounds, _create_analysis_plan in Hr.
      rewrite (bind_raise _ _ _ _ (bind_raise _ _ _ _
                 (messages_create_failure init Hs))) in Hr.
      discriminate. }
    rewrite (run_rounds_planned _ _ Hs) in Hr.
    apply bind_ok in Hr as (out & s2 & Hl & H).
    destruct out as [iteration|].
    + apply bind_ok in H as (? & ? & _ & H).
      apply bind_ok in H as (? & ? & _ & H). discriminate.
    + by apply investigation_loop_fuel in Hl; [|lia].
  - intros left r s' H.
    apply run_rounds_ok in H as (plan & s2 & Hl & -> & -> & _).
    apply investigation_loop_spec in Hl as (_ & Hle & Hlt & Hrec);
      [|apply rounds_recorded_planned].
    split; [lia|].
    destruct Hrec as [Hrec|Hrec];
      apply rounds_recorded_entries in Hrec as (Hn & Hu & _); auto.
Qed.

(** C8.  In the result of a run the trace starts with the planning entry;
    the entries after it are investigation entries numbered 1, 2, ... in
    order, and the findings hold, under the index of each entry, the result
    that the entry carries. *)
Theorem run_trace_well_formed r s' :
  run init = Ok (Some r, s') ->
  trace_well_formed (rr_reasoning_trace r) (rr_findings r).
Proof.
  intros H. apply run_ok in H as (left & H).
  apply run_rounds_ok in H as (plan & s2 & Hl & -> & _ & ->).
  apply investigation_loop_spec in Hl as (_ & _ & _ & Hrec);
    [|apply rounds_recorded_planned].
  destruct Hrec as [Hrec|Hrec];
    by apply rounds_recorded_entries in Hrec as (_ & _ & Hw).
Qed.

(** The loop when a single round is allowed: one action is decided; unless
    it is ["complete"] it is executed and recorded; the loop is then left
    without a request to the continuation check. *)
Lemma investigation_loop_single plan s :
  MAX_AGENT_ITERATIONS = 1 ->
  investigation_loop 1 plan false 0 s =
  (let* next_action := _decide_next_action plan 1 in
   let* kind := getitem next_action "action" in
   if eq_str kind "complete" then ret (Some 1)
   else
     let* res := _execute_action next_action in
     do* findings_set (findings_key 1) res in
     do* trace_append (Investigation 1 next_action res) in
     ret (Some 1)) s.
Proof.
  intros Hmax. rewrite investigation_loop_round by lia. simpl.
  unfold bind.
  destruct (_decide_next_action _ _ _) as [[next_action s1]|]; [|done].
  destruct (getitem _ _ _) as [[kind s1']|]; [|done].
  destruct (eq_str kind "complete"); [done|].
  destruct (_execute_action _ _) as [[res s2]|]; [|done].
  destruct (findings_set _ _ _) as [[[] s3]|]; [|done].
  destruct (trace_append _ _) as [[[] s4]|]; [|done].
  unfold _should_continue_investigation. rewrite Hmax. simpl.
  unfold ret. reflexivity.
Qed.

(** C4, as amended.  With [MAX_AGENT_ITERATIONS = 1] the loop makes one
    round: one action is decided and, unless it is ["complete"], executed
    and recorded, and the continuation check is not asked.  The result of the
    run has either the plan alone in its trace, an empty tool log and no
    finding, or one investigation entry numbered 1, one tool and the one
    finding ["iteration_1"]. *)
Theorem run_single_round :
  MAX_AGENT_ITERATIONS = 1 ->
  (forall plan s,
     investigation_loop 1 plan false 0 s =
     (let* next_action := _decide_next_action plan 1 in
      let* kind := getitem next_action "action" in
      if eq_str kind "complete" then ret (Some 1)
      else
        let* res := _execute_action next_action in
        do* findings_set (findings_key 1) res in
        do* trace_append (Investigation 1 next_action res) in
        ret (Some 1)) s) /\
  forall r s',
    run init = Ok (Some r, s') ->
    exists plan,
      (rr_reasoning_trace r = [Planning plan] /\
       rr_tools_used r = [] /\ rr_findings r = ∅) \/
      (exists action kind res,
         rr_reasoning_trace r = [Planning plan; Investigation 1 action res] /\
         rr_tools_used r = [kind] /\
         rr_findings r = {[ findings_key 1 := res ]}).
Proof.
  intros Hmax. split.
  - intros plan s. by apply investigation_loop_single.
  - intros r s' H. apply run_ok in H as (left & H).
    apply run_rounds_ok in H as (plan & s2 & Hl & -> & -> & ->).
    rewrite Hmax in Hl. change (Z.to_nat 1) with 1%nat in Hl.
    rewrite investigation_loop_single in Hl by done.
    exists plan.
    apply bind_ok in Hl as (next_action & s1 & Hd & H).
    apply decide_next_action_ok in Hd as (text & _ & -> & _).
    apply bind_ok in H as (kind & s1' & Hg & H).
    apply getitem_ok in Hg as [-> _].
    destruct (eq_str kind "complete").
    { injection H as _ <-. by left. }
    apply bind_ok in H as (res & s3 & He & H).
    apply execute_action_ok in He as (k & Et & Eu & Ef).
    apply bind_ok in H as ([] & s4 & H4 & H). injection H4 as <-.
    apply bind_ok in H as ([] & s5 & H5 & H). injection H5 as <-.
    injection H as _ <-. right. exists next_action, k, res. simpl.
    rewrite Et, Eu, Ef. simpl. by rewrite insert_empty.
Qed.

(** C5, as amended.  When the first action that is decided has the kind
    ["complete"], the run goes from planning to synthesis: the synthesis
    request is the third one, and the result has the plan as the only entry of
    its trace (no investigation entry), an empty tool log and no finding. *)
Theorem run_complete_at_first plan_text text kind :
  1 <= MAX_AGENT_ITERATIONS ->
  service 0%nat = Text plan_text ->
  service 1%nat = Text text ->
  kind_of (match json_loads text with
           | Some action => action
           | None => fallback_action
           end) = Some kind ->
  eq_str kind "complete" = true ->
  run init =
  match service 2%nat with
  | Failure => Raise TransportError
  | Text final_report =>
      let plan := match json_loads plan_text with
                  | Some plan => plan
                  | None => JObj [("raw_plan", JStr plan_text)]
                  end in
      Ok (Some {| report := final_report;
                  rr_reasoning_trace := [Planning plan];
                  rr_tools_used := [];
                  rr_findings := ∅ |},
          {| requests := 3;
             reasoning_trace := [Planning plan];
             tools_used := [];
             findings := ∅ |})
  end.
Proof.
  intros Hmax Hp Ht Hk Hc. unfold run. unfold bind at 1.
  rewrite (run_rounds_planned _ _ Hp).
  destruct (Z.to_nat MAX_AGENT_ITERATIONS) as [|fuel] eqn:Hf; [lia|].
  set (plan := match json_loads plan_text with
               | Some plan => plan
               | None => JObj [("raw_plan", JStr plan_text)]
               end).
  assert (investigation_loop (S fuel) plan false 0 (planned plan)
          = Ok (Some 1, requested (planned plan))) as Hl.
  { rewrite investigation_loop_round by lia.
    unfold _decide_next_action.
    rewrite (bind_step _ _ _ _ _
               (bind_step _ _ _ _ _ (messages_create_text (planned plan) _ Ht))).
    unfold ret at 1.
    assert (getitem (match json_loads text with
                     | Some action => action
                     | None => fallback_action
                     end) "action" (requested (planned plan))
            = Ok (kind, requested (planned plan))) as Hg
      by (by rewrite getitem_kind, Hk).
    rewrite (bind_step _ _ _ _ _ Hg). by rewrite Hc. }
  rewrite (bind_step _ _ _ _ _ Hl).
  unfold bind, _synthesize_report, messages_create. simpl.
  by destruct (service 2%nat).
Qed.

(** C1, the defect.  When the text of the first action decodes to a value
    that has no ['action'] entry, the subscript [next_action['action']] in
    [run] raises: [KeyError] for a dict without the key, [TypeError] for a
    value that is not a dict.  The exception is not a failure of the service
    and nothing in [run] catches it. *)
Theorem run_raises_on_missing_kind plan_text text action :
  1 <= MAX_AGENT_ITERATIONS ->
  service 0%nat = Text plan_text ->
  service 1%nat = Text text ->
  json_loads text = Some action ->
  kind_of action = None ->
  run init = Raise (match action with JObj _ => KeyError | _ => TypeError end).
Proof.
  intros Hmax Hp Ht Hd Hk. unfold run. apply bind_raise.
  rewrite (run_rounds_planned _ _ Hp).
  destruct (Z.to_nat MAX_AGENT_ITERATIONS) as [|fuel] eqn:Hf; [lia|].
  apply bind_raise.
  rewrite investigation_loop_round by lia.
  unfold _decide_next_action.
  rewrite (bind_step _ _ _ _ _
             (bind_step _ _ _ _ _ (messages_create_text (planned _) _ Ht))).
  unfold ret at 1. rewrite Hd.
  apply bind_raise. by rewrite getitem_kind, Hk.
Qed.

(** ** Further properties of the run *)

(** A run that returns, taken apart. *)
Lemma run_rounds_inv fuel left r s' :
  run_rounds fuel init = Ok (Some (left, r), s') ->
  exists text s2,
    service 0%nat = Text text /\
    investigation_loop fuel
      (match json_loads text with
       | Some plan => plan
       | None => JObj [("raw_plan", JStr text)]
       end) false 0
      (planned (match json_loads text with
                | Some plan => plan
                | None => JObj [("raw_plan", JStr text)]
                end)) = Ok (Some left, s2) /\
    service (requests s2) = Text (report r) /\
    s' = requested s2 /\
    rr_reasoning_trace r = reasoning_trace s2 /\
    rr_tools_used r = tools_used s2 /\
    rr_findings r = findings s2.
Proof.
  intros H. destruct (service 0%nat) as [|text] eqn:Hs.
  { unfold run_rounds, _create_analysis_plan in H.
    rewrite (bind_raise _ _ _ _ (bind_raise _ _ _ _
               (messages_create_failure init Hs))) in H.
    discriminate. }
  rewrite (run_rounds_planned _ _ Hs) in H.
  apply bind_ok in H as (out & s2 & Hl & H).
  destruct out as [iteration|]; [|discriminate].
  apply bind_ok in H as (final_report & s3 & Hr & H).
  unfold _synthesize_report in Hr.
  destruct (reasoning_trace s2) eqn:Et; [discriminate|].
  apply messages_create_ok in Hr as [Hq ->].
  apply bind_ok in H as (r' & s4 & Hd & H).
  injection Hd as <- <-. injection H as <- <- <-.
  exists text, s2. simpl. by rewrite Et.
Qed.

Lemma loop_ceiling fuel plan s left s' :
  investigation_loop fuel plan false 0 s = Ok (Some left, s') ->
  0 <= left /\
  (left = 0 -> MAX_AGENT_ITERATIONS <= 0) /\
  (1 <= left -> left <= Z.max 1 (MAX_AGENT_ITERATIONS - 1)).
Proof.
  apply (investigation_loop_rule
    (fun complete iteration _ =>
       0 <= iteration /\
       (iteration = 0 -> complete = false) /\
       (1 <= iteration -> iteration <= Z.max 1 (MAX_AGENT_ITERATIONS - 1)) /\
       (complete = false -> 1 <= iteration ->
        iteration < MAX_AGENT_ITERATIONS - 1))
    (fun left _ =>
       0 <= left /\
       (left = 0 -> MAX_AGENT_ITERATIONS <= 0) /\
       (1 <= left -> left <= Z.max 1 (MAX_AGENT_ITERATIONS - 1)))).
  - intros complete iteration _ (H0 & Hz & Hb & _) Hc.
    split_and!; [done| |done].
    intros ->. destruct Hc as [->|Hc]; [|done]. by discriminate Hz.
  - intros iteration _ _ _ (H0 & _ & _ & Hf) Hlt _ _ _.
    split_and!; [lia|lia|]. intros _.
    destruct (decide (iteration = 0)) as [->|Hne]; [lia|].
    specialize (Hf eq_refl). lia.
  - intros iteration s0 next_action kind res s2 continue s5
      (H0 & _ & _ & Hf) Hlt _ _ _ _ Hs.
    apply should_continue_cases in Hs as (_ & _ & _ & Ht).
    split_and!; [lia|lia| |].
    + intros _. destruct (decide (iteration = 0)) as [->|Hne]; [lia|].
      specialize (Hf eq_refl). lia.
    + intros Hc _. destruct (truthy continue); [|discriminate Hc].
      by destruct (Ht eq_refl).
  - split_and!; [done|done|lia|lia].
Qed.

Lemma loop_requests fuel plan s left s' :
  requests s = 1%nat ->
  investigation_loop fuel plan false 0 s = Ok (Some left, s') ->
  Z.of_nat (requests s') <= 3 * left + 1 /\
  (1 <= left -> MAX_AGENT_ITERATIONS - 1 <= left ->
   Z.of_nat (requests s') <= 3 * left).
Proof.
  intros Hone.
  apply (investigation_loop_rule
    (fun _ iteration s =>
       0 <= iteration /\
       Z.of_nat (requests s) <= 3 * iteration + 1 /\
       (1 <= iteration -> MAX_AGENT_ITERATIONS - 1 <= iteration ->
        Z.of_nat (requests s) <= 3 * iteration))
    (fun left s =>
       Z.of_nat (requests s) <= 3 * left + 1 /\
       (1 <= left -> MAX_AGENT_ITERATIONS - 1 <= left ->
        Z.of_nat (requests s) <= 3 * left))).
  - intros _ iteration s0 (_ & H1 & H2) _. by split.
  - intros iteration s0 _ _ (H0 & H1 & _) _ _ _ _. simpl. lia.
  - intros iteration s0 next_action kind res s2 continue s5
      (H0 & H1 & _) Hlt _ Hk _ He Hs.
    apply (execute_action_kind _ _ _ _ _ Hk) in He as (_ & _ & _ & Hr).
    apply should_continue_cases in Hs as (_ & Hq & Hceil & _).
    assert (Z.of_nat (requests s2) <= Z.of_nat (requests s0) + 2) as Hs2.
    { destruct Hr as [Hr|[Hr _]]; rewrite Hr; simpl; lia. }
    split; [lia|]. split.
    + destruct Hq as [Hq|[Hq _]]; rewrite Hq; simpl; lia.
    + intros _ Hge. destruct (Hceil Hge) as [-> _]. simpl. lia.
  - rewrite Hone. split_and!; lia.
Qed.

(** X1.  With a ceiling of at least 2 the loop never begins round
    [MAX_AGENT_ITERATIONS]: the continuation check answers [False] after
    round [MAX_AGENT_ITERATIONS - 1], so a run begins between 1 and
    [MAX_AGENT_ITERATIONS - 1] rounds and its trace has at most that many
    investigation entries. *)
Theorem run_rounds_effective_ceiling left r s' :
  2 <= MAX_AGENT_ITERATIONS ->
  run_rounds (Z.to_nat MAX_AGENT_ITERATIONS) init = Ok (Some (left, r), s') ->
  1 <= left <= MAX_AGENT_ITERATIONS - 1 /\
  Z.of_nat (investigation_entries (rr_reasoning_trace r))
  <= MAX_AGENT_ITERATIONS - 1.
Proof.
  intros Hmax H.
  apply run_rounds_inv in H as (text & s2 & _ & Hl & _ & _ & -> & _ & _).
  pose proof (loop_ceiling _ _ _ _ _ Hl) as (H0 & Hz & Hb).
  assert (1 <= left <= MAX_AGENT_ITERATIONS - 1) as Hleft.
  { destruct (decide (left = 0)) as [E|E]; [specialize (Hz E); lia|lia]. }
  split; [done|].
  apply investigation_loop_spec in Hl as (_ & _ & _ & Hrec);
    [|apply rounds_recorded_planned].
  destruct Hrec as [Hrec|Hrec];
    apply rounds_recorded_entries in Hrec as (Hn & _ & _); lia.
Qed.

(** X2.  A run that returns has sent at most
    [3 * max 1 (MAX_AGENT_ITERATIONS - 1) + 1] requests to the text service:
    one for the plan, at most three in a round (action, analysis,
    continuation), none for the continuation of the last round the ceiling
    allows, and one for the report. *)
Theorem run_requests_bounded left r s' :
  run_rounds (Z.to_nat MAX_AGENT_ITERATIONS) init = Ok (Some (left, r), s') ->
  Z.of_nat (requests s') <= 3 * Z.max 1 (MAX_AGENT_ITERATIONS - 1) + 1.
Proof.
  intros H.
  apply run_rounds_inv in H as (text & s2 & _ & Hl & _ & -> & _).
  pose proof (loop_ceiling _ _ _ _ _ Hl) as (H0 & _ & Hb).
  pose proof (loop_requests _ _ (planned _) _ _ eq_refl Hl) as (H1 & H2).
  simpl. destruct (decide (left = 0)) as [->|Hne]; [lia|].
  destruct (Z.le_gt_cases (MAX_AGENT_ITERATIONS - 1) left) as [Hge|Hlt].
  - specialize (H2 ltac:(lia) Hge). specialize (Hb ltac:(lia)). lia.
  - lia.
Qed.

Lemma findings_exact_same n s s' :
  findings_exact n s -> findings s' = findings s -> findings_exact n s'.
Proof. intros [Hs Hk] E. split; by rewrite E. Qed.

Lemma findings_exact_step n s res :
  0 <= n ->
  findings_exact n s ->
  size (<[findings_key (n + 1) := res]> (findings s)) = Z.to_nat (n + 1) /\
  forall key v,
    <[findings_key (n + 1) := res]> (findings s) !! key = Some v ->
    exists k, 1 <= k <= n + 1 /\ key = findings_key k.
Proof.
  intros Hn [Hs Hk]. split.
  - rewrite map_size_insert_None; [rewrite Hs; lia|].
    destruct (findings s !! findings_key (n + 1)) as [v|] eqn:E; [|done].
    destruct (Hk _ _ E) as (k & Hr & Ek).
    apply findings_key_inj in Ek. lia.
  - intros key v E. apply lookup_insert_Some in E as [[<- _]|[_ E]].
    + exists (n + 1). split; [lia|done].
    + destruct (Hk _ _ E) as (k & Hr & ->). exists k. split; [lia|done].
Qed.

(** What the loop has recorded when it is left, from the planned state. *)
Lemma loop_findings fuel plan left s' :
  investigation_loop fuel plan false 0 (planned plan) = Ok (Some left, s') ->
  exists n, 0 <= n /\ rounds_recorded n s' /\ findings_exact n s'.
Proof.
  apply (investigation_loop_rule
    (fun _ iteration s =>
       0 <= iteration /\ rounds_recorded iteration s /\ findings_exact iteration s)
    (fun _ s => exists n, 0 <= n /\ rounds_recorded n s /\ findings_exact n s)).
  - intros _ iteration s HI _. by exists iteration.
  - intros iteration s _ _ (H0 & Hr & Hf) _ _ _ _. exists iteration.
    split_and!; [done| |by eapply findings_exact_same].
    eapply rounds_recorded_same; [exact Hr|apply same_data_requested].
  - intros iteration s next_action kind res s2 continue s5
      (H0 & Hr & Hf) _ _ Hk _ He Hs.
    apply (execute_action_kind _ _ _ _ _ Hk) in He as (Et & Eu & Ef & _).
    apply should_continue_cases in Hs as (Hsame & _).
    split; [lia|]. split.
    + eapply rounds_recorded_same; [|exact Hsame].
      eapply rounds_recorded_step with (action := next_action) (kind := kind);
        [exact Hr|simpl..].
      * by rewrite Et.
      * by rewrite Eu.
      * by rewrite Ef.
    + destruct Hsame as (_ & _ & E). split; rewrite E; simpl; rewrite Ef;
        by apply findings_exact_step.
  - split_and!; [done|apply rounds_recorded_planned|].
    split; [done|]. intros key v E. simpl in E. by rewrite lookup_empty in E.
Qed.

(** X3.  In the result of a run the findings hold one entry for each
    investigation entry of the trace and nothing else: their size is the
    number of investigation entries, and their keys are exactly
    [iteration_1] to [iteration_n].  No round overwrites the finding of
    another. *)
Theorem run_findings_exact r s' :
  run init = Ok (Some r, s') ->
  size (rr_findings r) = investigation_entries (rr_reasoning_trace r) /\
  forall key,
    is_Some (rr_findings r !! key) <->
    exists k,
      1 <= k <= Z.of_nat (investigation_entries (rr_reasoning_trace r)) /\
      key = findings_key k.
Proof.
  intros H. apply run_ok in H as (left & H).
  apply run_rounds_inv in H as (text & s2 & _ & Hl & _ & _ & -> & _ & ->).
  apply loop_findings in Hl as (n & H0 & Hr & Hs & Hk).
  pose proof (rounds_recorded_entries _ _ Hr) as (Hn & _ & _).
  destruct Hr as (plan & entries & Et & Hlen & _ & Hf).
  split; [rewrite Hs; lia|].
  intros key. rewrite Hn. split.
  - intros [v E]. eauto.
  - intros (k & Hrange & ->).
    destruct (lookup_lt_is_Some_2 entries (Z.to_nat (k - 1))) as [e He]; [lia|].
    destruct (Hf _ _ He) as (a & res & _ & E).
    replace (Z.of_nat (Z.to_nat (k - 1)) + 1) with k in E by lia. eauto.
Qed.

Lemma loop_tools fuel plan left s' :
  investigation_loop fuel plan false 0 (planned plan) = Ok (Some left, s') ->
  tools_match (reasoning_trace s') (tools_used s').
Proof.
  apply (investigation_loop_rule
    (fun _ _ s => tools_match (reasoning_trace s) (tools_used s))
    (fun _ s => tools_match (reasoning_trace s) (tools_used s))).
  - by intros.
  - by intros.
  - intros iteration s next_action kind res s2 continue s5
      (p & entries & Et & HF) _ _ Hk Hc He Hs.
    apply (execute_action_kind _ _ _ _ _ Hk) in He as (Et2 & Eu & _ & _).
    apply should_continue_cases in Hs as ((E1 & E2 & _) & _).
    rewrite E1, E2. simpl. rewrite Et2, Eu. simpl. rewrite Et.
    exists p, (entries ++ [Investigation (iteration + 1) next_action res]).
    split; [done|]. apply Forall2_app; [done|].
    constructor; [|constructor]. eauto 10.
  - exists plan, []. split; [done|constructor].
Qed.

(** X4.  In the result of a run the tool log lists, in the order of the
    trace, the kind of the action of each investigation entry, and
    ["complete"] is never among them. *)
Theorem run_tools_match r s' :
  run init = Ok (Some r, s') ->
  tools_match (rr_reasoning_trace r) (rr_tools_used r).
Proof.
  intros H. apply run_ok in H as (left & H).
  apply run_rounds_inv in H as (text & s2 & _ & Hl & _ & _ & -> & -> & _).
  by apply loop_tools in Hl.
Qed.









(** A run from any state of the object, taken apart. *)
Lemma run_rounds_from fuel s left r s' :
  run_rounds fuel s = Ok (Some (left, r), s') ->
  exists plan s2,
    investigation_loop fuel plan false 0 (planned_from plan s) = Ok (Some left, s2) /\
    rr_reasoning_trace r = reasoning_trace s2 /\
    rr_tools_used r = tools_used s2.
Proof.
  intros H. apply bind_ok in H as (plan & s1 & Hp & H).
  apply bind_ok in Hp as (text & s0 & Hc & Hp).
  apply messages_create_ok in Hc as [_ ->]. injection Hp as <- <-.
  apply bind_ok in H as ([] & s1' & Ha & H). injection Ha as <-.
  apply bind_ok in H as (out & s2 & Hl & H).
  destruct out as [iteration|]; [|discriminate].
  apply bind_ok in H as (final_report & s3 & Hr & H).
  apply synthesize_report_ok in Hr as (Et & Eu & _).
  apply bind_ok in H as (r' & s4 & Hd & H).
  injection Hd as <- <-. injection H as <- <- <-.
  eexists _, s2. split; [exact Hl|]. simpl. by rewrite Et, Eu.
Qed.

(** X9.  [run] only appends to the trace and to the tool log, also on an
    object that has run before: the trace of the result is the trace the
    object had, followed by the new planning entry and the investigation
    entries of this run, and the tool log of the result starts with the tool
    log the object had. *)
Theorem run_append_only s r s' :
  run s = Ok (Some r, s') ->
  exists plan entries tools,
    rr_reasoning_trace r = reasoning_trace s ++ Planning plan :: entries /\
    Forall (fun e => is_investigation e = true) entries /\
    rr_tools_used r = tools_used s ++ tools /\
    length tools = length entries.
Proof.
  intros H. apply bind_ok in H as (out & s1 & Hr & H).
  injection H as H <-. destruct out as [[left r']|]; [|discriminate].
  injection H as <-.
  apply run_rounds_from in Hr as (plan & s2 & Hl & -> & ->).
  revert Hl.
  apply (investigation_loop_rule
    (fun _ _ s1 => exists entries tools,
       reasoning_trace s1 = reasoning_trace s ++ Planning plan :: entries /\
       Forall (fun e => is_investigation e = true) entries /\
       tools_used s1 = tools_used s ++ tools /\
       length tools = length entries)
    (fun _ s1 => exists plan entries tools,
       reasoning_trace s1 = reasoning_trace s ++ Planning plan :: entries /\
       Forall (fun e => is_investigation e = true) entries /\
       tools_used s1 = tools_used s ++ tools /\
       length tools = length entries)).
  - intros c it t (entries & tools & HI) _. by exists plan, entries, tools.
  - intros it t a k (entries & tools & HI) _ _ _ _.
    by exists plan, entries, tools.
  - intros it s0 next_action kind res s3 continue s5
      (entries & tools & Et & HF & Eu & Hlen) _ _ Hk _ He Hs.
    apply (execute_action_kind _ _ _ _ _ Hk) in He as (Et2 & Eu2 & _ & _).
    apply should_continue_cases in Hs as ((E1 & E2 & _) & _).
    exists (entries ++ [Investigation (it + 1) next_action res]), (tools ++ [kind]).
    rewrite E1, E2. simpl. rewrite Et2, Eu2. simpl. rewrite Et, Eu.
    split_and!.
    + by rewrite <- app_assoc.
    + apply Forall_app. split; [done|]. by constructor.
    + by rewrite <- app_assoc.
    + rewrite !length_app. simpl. lia.
  - exists [], []. simpl. by rewrite app_nil_r.
Qed.

End AgenticAI.

(** ** Replaying a run against another service *)

Section Replay.

Variable json_loads : string -> option json.
Variables f g : nat -> response.
Variable MAX_AGENT_ITERATIONS : Z.













End Replay.

(** ** The title task *)









(** ** The theorems at concrete runs *)

Lemma should_continue_ceiling_witness :
  2 >= 3 - 1 /\
  _should_continue_investigation table_loads (script []) 3 JNull 2 init
  = Ok (JBool false, init).
Proof.
  split; [done|]. apply (should_continue_ceiling table_loads (script []) 3). done.
Defined.

Lemma should_continue_missing_key_witness :
  _should_continue_investigation table_loads (script [Text "{}"]) 3 JNull 1 init
  = Ok (JBool false, requested init).
Proof.
  apply (should_continue_missing_key table_loads (script [Text "{}"]) 3
           JNull 1 init "{}" []); reflexivity.
Defined.

Lemma execute_action_default_kind_witness :
  _execute_action table_loads (script [Text "{}"]) (JObj []) init
  = Ok (JObj [],
        {| requests := 1; reasoning_trace := [];
           tools_used := [JStr "analyze"]; findings := ∅ |}).
Proof.
  rewrite (execute_action_default_kind table_loads (script [Text "{}"]) [] init);
    reflexivity.
Defined.

Lemma execute_action_unknown_kind_witness :
  _execute_action table_loads (script []) (JObj [("action", JStr "summarize")]) init
  = Ok (JObj [("status", JStr "unknown_action")],
        {| requests := 0; reasoning_trace := [];
           tools_used := [JStr "summarize"]; findings := ∅ |}) /\
  investigation_loop table_loads
    (script [Text (action_text "summarize"); Text "enough"]) 3 1 JNull false 0 init
  = Ok (Some 1,
        recorded 1 (JObj [("action", JStr "summarize")]) (JStr "summarize")
          (JObj [("status", JStr "unknown_action")])
          {| requests := 2; reasoning_trace := [];
             tools_used := []; findings := ∅ |}).
Proof.
  split.
  - apply (execute_action_unknown_kind table_loads (script []) 3
             [("action", JStr "summarize")] (JStr "summarize") init); reflexivity.
  - rewrite (proj2 (execute_action_unknown_kind table_loads
                      (script [Text (action_text "summarize"); Text "enough"]) 3
                      [("action", JStr "summarize")] (JStr "summarize") init
                      eq_refl eq_refl)
               0%nat JNull 0 (action_text "summarize")); reflexivity.
Defined.

Lemma decide_next_action_fallback_witness :
  _decide_next_action table_loads (script [Text "I would look at revenue"])
    JNull 0 init
  = Ok (fallback_action, requested init) /\
  investigation_loop table_loads (script [Text "I would look at revenue"]) 3
    1 JNull false 0 init
  = Ok (Some 1, requested init).
Proof.
  split.
  - apply (decide_next_action_fallback table_loads
             (script [Text "I would look at revenue"]) 3 JNull 0 init
             "I would look at revenue"); reflexivity.
  - apply (decide_next_action_fallback table_loads
             (script [Text "I would look at revenue"]) 3 JNull 0 init
             "I would look at revenue"); reflexivity.
Defined.

Lemma run_rounds_bounded_witness :
  1 <= 3 /\
  exists left r s',
    run_rounds table_loads
      (script [Text "plan"; Text (action_text "calculate"); Text "go on";
               Text (action_text "complete"); Text "report"]) 3 3 init
    = Ok (Some (left, r), s') /\
    1 <= left <= 3 /\
    (Z.of_nat (investigation_entries (rr_reasoning_trace r)) = left \/
     Z.of_nat (investigation_entries (rr_reasoning_trace r)) = left - 1) /\
    length (rr_tools_used r) = investigation_entries (rr_reasoning_trace r).
Proof.
  split; [done|]. eexists _, _, _. split.
  - vm_compute. reflexivity.
  - eapply (proj2 (run_rounds_bounded table_loads
              (script [Text "plan"; Text (action_text "calculate"); Text "go on";
                       Text (action_text "complete"); Text "report"]) 3 _)).
    vm_compute. reflexivity.
    Unshelve. done.
Defined.

Lemma run_trace_well_formed_witness :
  exists r s',
    run table_loads
      (script [Text "plan"; Text (action_text "calculate"); Text "go on";
               Text (action_text "complete"); Text "report"]) 3 init
    = Ok (Some r, s') /\
    trace_well_formed (rr_reasoning_trace r) (rr_findings r).
Proof.
  eexists _, _. split.
  - vm_compute. reflexivity.
  - eapply (run_trace_well_formed table_loads
              (script [Text "plan"; Text (action_text "calculate"); Text "go on";
                       Text (action_text "complete"); Text "report"]) 3).
    vm_compute. reflexivity.
Defined.

Lemma run_single_round_witness :
  exists r s',
    run table_loads
      (script [Text "plan"; Text (action_text "calculate"); Text "report"]) 1 init
    = Ok (Some r, s') /\
    exists plan,
      (rr_reasoning_trace r = [Planning plan] /\
       rr_tools_used r = [] /\ rr_findings r = ∅) \/
      (exists action kind res,
         rr_reasoning_trace r = [Planning plan; Investigation 1 action res] /\
         rr_tools_used r = [kind] /\
         rr_findings r = {[ findings_key 1 := res ]}).
Proof.
  eexists _, _. split.
  - vm_compute. reflexivity.
  - eapply (proj2 (run_single_round table_loads
              (script [Text "plan"; Text (action_text "calculate"); Text "report"])
              1 eq_refl)).
    vm_compute. reflexivity.
Defined.

Lemma run_complete_at_first_witness :
  run table_loads
    (script [Text "plan"; Text (action_text "complete"); Text "report"]) 3 init
  = Ok (Some {| report := "report";
                rr_reasoning_trace := [Planning (JObj [("raw_plan", JStr "plan")])];
                rr_tools_used := [];
                rr_findings := ∅ |},
        {| requests := 3;
           reasoning_trace := [Planning (JObj [("raw_plan", JStr "plan")])];
           tools_used := [];
           findings := ∅ |}).
Proof.
  apply (run_complete_at_first table_loads
           (script [Text "plan"; Text (action_text "complete"); Text "report"]) 3
           "plan" (action_text "complete") (JStr "complete")); done.
Defined.

Lemma run_raises_on_missing_kind_witness :
  run table_loads (script [Text "plan"; Text "{}"; Text "report"]) 3 init
  = Raise KeyError.
Proof.
  apply (run_raises_on_missing_kind table_loads
           (script [Text "plan"; Text "{}"; Text "report"]) 3
           "plan" "{}" (JObj [])); done.
Defined.

(** ** Where the code departs from the stated properties *)

(** C3 as stated fails: when the first action decided is ["complete"], the
    run returns with no investigation entry in its trace, so the number of
    investigation entries is not a number of iterations that is at least 1. *)
Lemma round_count_claim_fails :
  ~ (forall loads svc MAX,
       1 <= MAX ->
       forall left r s',
         run_rounds loads svc MAX (Z.to_nat MAX) init = Ok (Some (left, r), s') ->
         exists performed,
           1 <= performed <= MAX /\
           Z.of_nat (investigation_entries (rr_reasoning_trace r)) = performed).
Proof.
  intros H.
  edestruct (H table_loads
               (script [Text "plan"; Text (action_text "complete"); Text "report"])
               1) as (performed & Hp & He).
  - done.
  - vm_compute. reflexivity.
  - vm_compute in He. lia.
Qed.

(** C4 as stated fails: with a ceiling of 1 an action is decided (a run whose
    first action is ["complete"] has sent three requests, the second of
    which asks for the action), and an action of another kind is executed and
    leaves a finding. *)
Lemma single_round_claim_fails :
  ~ (forall loads svc r s',
       run loads svc 1 init = Ok (Some r, s') -> rr_findings r = ∅) /\
  ~ (forall loads svc r s',
       run loads svc 1 init = Ok (Some r, s') -> requests s' = 2%nat).
Proof.
  split; intros H.
  - assert (exists r s',
              run table_loads
                (script [Text "plan"; Text (action_text "calculate");
                         Text "report"]) 1 init = Ok (Some r, s') /\
              rr_findings r !! findings_key 1 <> None) as (r & s' & Hr & Hf).
    { eexists _, _. split; [vm_compute; reflexivity|]. vm_compute. discriminate. }
    apply H in Hr. rewrite Hr in Hf. by apply Hf.
  - assert (exists r s',
              run table_loads
                (script [Text "plan"; Text (action_text "complete");
                         Text "report"]) 1 init = Ok (Some r, s') /\
              requests s' = 3%nat) as (r & s' & Hr & Hq).
    { eexists _, _. split; [vm_compute; reflexivity|]. reflexivity. }
    apply H in Hr. congruence.
Qed.

(** C5 as stated fails: when the first action decided is ["complete"] the
    trace of the result has no investigation entry, not one. *)
Lemma complete_first_claim_fails :
  ~ (forall loads svc MAX plan_text text action kind r s',
       svc 0%nat = Text plan_text ->
       svc 1%nat = Text text ->
       loads text = Some action ->
       kind_of action = Some kind ->
       eq_str kind "complete" = true ->
       run loads svc MAX init = Ok (Some r, s') ->
       investigation_entries (rr_reasoning_trace r) = 1%nat).
Proof.
  intros H.
  assert (exists r s',
            run table_loads
              (script [Text "plan"; Text (action_text "complete");
                       Text "report"]) 3 init = Ok (Some r, s') /\
            investigation_entries (rr_reasoning_trace r) = 0%nat)
    as (r & s' & Hr & He).
  { eexists _, _. split; [vm_compute; reflexivity|]. reflexivity. }
  apply (H _ _ _ "plan" (action_text "complete")
           (JObj [("action", JStr "complete")]) (JStr "complete")) in Hr;
    [congruence|reflexivity..].
Qed.

(** C6 as stated fails: the text [{}] decodes, to a dict that has none of
    the entries of an action, and [_decide_next_action] returns that dict, not
    an action of kind ["complete"]. *)
Lemma fallback_claim_fails :
  ~ (forall loads svc plan iteration s text,
       svc (requests s) = Text text ->
       (forall v, loads text = Some v -> kind_of v = None) ->
       exists action s',
         _decide_next_action loads svc plan iteration s = Ok (action, s') /\
         kind_of action = Some (JStr "complete")).
Proof.
  intros H.
  destruct (H table_loads (script [Text "{}"]) JNull 1 init "{}")
    as (action & s' & Hd & Hk).
  - reflexivity.
  - intros v Hv. vm_compute in Hv. by injection Hv as <-.
  - vm_compute in Hd. injection Hd as <- <-. discriminate Hk.
Qed.

(** ** The further properties at concrete runs *)

Lemma run_rounds_effective_ceiling_witness :
  exists left r s',
    run_rounds table_loads_continue two_rounds 3 3 init = Ok (Some (left, r), s') /\
    1 <= left <= 3 - 1 /\
    Z.of_nat (investigation_entries (rr_reasoning_trace r)) <= 3 - 1.
Proof.
  eexists _, _, _. split.
  - vm_compute. reflexivity.
  - eapply (run_rounds_effective_ceiling table_loads_continue two_rounds 3).
    + done.
    + vm_compute. reflexivity.
Defined.

Lemma run_requests_bounded_witness :
  exists left r s',
    run_rounds table_loads_continue two_rounds 3 3 init = Ok (Some (left, r), s') /\
    Z.of_nat (requests s') <= 3 * Z.max 1 (3 - 1) + 1.
Proof.
  eexists _, _, _. split.
  - vm_compute. reflexivity.
  - eapply (run_requests_bounded table_loads_continue two_rounds 3).
    vm_compute. reflexivity.
Defined.

Lemma run_findings_exact_witness :
  exists r s',
    run table_loads_continue two_rounds 3 init = Ok (Some r, s') /\
    size (rr_findings r) = investigation_entries (rr_reasoning_trace r).
Proof.
  eexists _, _. split.
  - vm_compute. reflexivity.
  - eapply (run_findings_exact table_loads_continue two_rounds 3).
    vm_compute. reflexivity.
Defined.

Lemma run_tools_match_witness :
  exists r s',
    run table_loads_continue two_rounds 3 init = Ok (Some r, s') /\
    tools_match (rr_reasoning_trace r) (rr_tools_used r).
Proof.
  eexists _, _. split.
  - vm_compute. reflexivity.
  - eapply (run_tools_match table_loads_continue two_rounds 3).
    vm_compute. reflexivity.
Defined.




Lemma run_append_only_witness :
  exists r s',
    run table_loads_continue two_rounds 3
      {| requests := 0;
         reasoning_trace := [Planning JNull; Investigation 1 JNull JNull];
         tools_used := [JStr "compare"];
         findings := ∅ |} = Ok (Some r, s') /\
    exists plan entries tools,
      rr_reasoning_trace r
      = [Planning JNull; Investigation 1 JNull JNull] ++ Planning plan :: entries /\
      Forall (fun e => is_investigation e = true) entries /\
      rr_tools_used r = [JStr "compare"] ++ tools /\
      length tools = length entries.
Proof.
  eexists _, _. split.
  - vm_compute. reflexivity.
  - eapply (run_append_only table_loads_continue two_rounds 3
              {| requests := 0;
                 reasoning_trace := [Planning JNull; Investigation 1 JNull JNull];
                 tools_used := [JStr "compare"];
                 findings := ∅ |}).
    vm_compute. reflexivity.
Defined.



